(** * A shallow embedding of [app.py] (beansbettingbot)

    The daily-report pipeline: record parsing, game summarising, the
    winner heuristic, report building, league selection in [/today], and
    the webhook secret configuration.

    Python data is modelled as follows:
    - [str] as [string] (a byte string; the non-ASCII characters of the
      source literals are written in UTF-8);
    - [int] as [Z];
    - the float [pct] as the rational [Q] holding the exact quotient that
      Python's true division rounds;
    - the JSON dictionaries of the scoreboard source as typed records that
      have the shape described for the data source;
    - Python exceptions as the [Raise] branch of a small result monad. *)

From Stdlib Require Import String Ascii ZArith QArith List Bool Lia
  Numbers.DecimalString Numbers.DecimalZ.
Import ListNotations.
Open Scope string_scope.

(** ** Python exceptions and the result monad *)

Inductive exn : Type :=
| StopIteration   (** [next(...)] on an exhausted generator *)
| IndexError      (** [xs[0]] on an empty list *)
| ValueError.     (** [int(s)] on a string that is not an integer literal *)

Inductive result (A : Type) : Type :=
| Ok (a : A)
| Raise (e : exn).
Arguments Ok {A} a.
Arguments Raise {A} e.

Definition bind {A B} (m : result A) (k : A -> result B) : result B :=
  match m with
  | Ok a => k a
  | Raise e => Raise e
  end.

Notation "x <- m ;; k" := (bind m (fun x => k))
  (at level 61, m at next level, right associativity).

(** ** String helpers: the Python built-ins the code uses *)

Definition is_digit (c : ascii) : bool :=
  let n := nat_of_ascii c in (48 <=? n)%nat && (n <=? 57)%nat.

Definition digit_value (c : ascii) : Z := Z.of_nat (nat_of_ascii c - 48).

(** [str.upper] and [str.lower] on ASCII letters. *)
Definition char_upper (c : ascii) : ascii :=
  let n := nat_of_ascii c in
  if (97 <=? n)%nat && (n <=? 122)%nat then ascii_of_nat (n - 32) else c.

Definition char_lower (c : ascii) : ascii :=
  let n := nat_of_ascii c in
  if (65 <=? n)%nat && (n <=? 90)%nat then ascii_of_nat (n + 32) else c.

Fixpoint str_map (f : ascii -> ascii) (s : string) : string :=
  match s with
  | EmptyString => EmptyString
  | String c s' => String (f c) (str_map f s')
  end.

Definition upper (s : string) : string := str_map char_upper s.
Definition lower (s : string) : string := str_map char_lower s.

(** [sep.join(xs)]. *)
Fixpoint join (sep : string) (xs : list string) : string :=
  match xs with
  | [] => ""
  | [x] => x
  | x :: xs' => x ++ sep ++ join sep xs'
  end.

(** [str(n)] for an [int]. *)
Definition str_of_int (n : Z) : string := NilEmpty.string_of_int (Z.to_int n).

(** Decimal value of a run of ASCII digits ([int] on such a run). *)
Fixpoint digits_value_acc (acc : Z) (s : string) : Z :=
  match s with
  | EmptyString => acc
  | String c s' => digits_value_acc (10 * acc + digit_value c) s'
  end.

Definition digits_value (s : string) : Z := digits_value_acc 0 s.

(** [re.findall(r"\d+", s)]: the maximal runs of digits, left to right.
    [cur] is the run being read, empty outside a run. *)
Fixpoint findall_digits_aux (s : string) (cur : string) : list string :=
  match s with
  | EmptyString =>
      match cur with EmptyString => [] | _ => [cur] end
  | String c s' =>
      if is_digit c then findall_digits_aux s' (cur ++ String c EmptyString)
      else match cur with
           | EmptyString => findall_digits_aux s' EmptyString
           | _ => cur :: findall_digits_aux s' EmptyString
           end
  end.

Definition findall_digits (s : string) : list string :=
  findall_digits_aux s EmptyString.

(** ** [_parse_record] *)

Definition _parse_record (rec_summary : string) : Z * Z :=
  let nums := map digits_value (findall_digits rec_summary) in
  match nums with
  | n0 :: n1 :: _ => (n0, n1)
  | _ => (0%Z, 0%Z)
  end.

(** [int(s)] on a [str]: surrounding whitespace is stripped, an optional
    sign is read, then decimal digits in which single underscores may
    separate digits. Anything else raises [ValueError]. *)
Definition is_py_space (c : ascii) : bool :=
  let n := nat_of_ascii c in
  ((9 <=? n)%nat && (n <=? 13)%nat) || ((28 <=? n)%nat && (n <=? 32)%nat).

Fixpoint lstrip (l : list ascii) : list ascii :=
  match l with
  | c :: l' => if is_py_space c then lstrip l' else l
  | [] => []
  end.

Definition strip (l : list ascii) : list ascii := rev (lstrip (rev (lstrip l))).

Fixpoint underscored_digits (l : list ascii) (acc : Z) (prev_us : bool)
  : option Z :=
  match l with
  | [] => if prev_us then None else Some acc
  | c :: l' =>
      if is_digit c then underscored_digits l' (10 * acc + digit_value c) false
      else if Ascii.eqb c "_"%char then
        (if prev_us then None else underscored_digits l' acc true)
      else None
  end.

Definition int_literal (l : list ascii) : option Z :=
  match l with
  | c :: l' => if is_digit c then underscored_digits l' (digit_value c) false
               else None
  | [] => None
  end.

Definition py_int (s : string) : result Z :=
  let body :=
    match strip (list_ascii_of_string s) with
    | "-"%char :: l => option_map Z.opp (int_literal l)
    | "+"%char :: l => int_literal l
    | l => int_literal l
    end in
  match body with
  | Some n => Ok n
  | None => Raise ValueError
  end.

(** ** The scoreboard data ([RawGame]) *)

Record Team := mkTeam {
  team_id : string;                     (** [team.id] *)
  displayName : string;                 (** [team.displayName] *)
  abbreviation : option string          (** [team.abbreviation], optional *)
}.

Record RecordEntry := mkRecordEntry {
  summary : option string               (** [records[i].summary], optional *)
}.

Record Competitor := mkCompetitor {
  homeAway : string;                    (** ["home"] or ["away"] *)
  team : Team;
  records : list RecordEntry;           (** absent [records] is [[]] *)
  score : option string                 (** [score], optional *)
}.

Record Competition := mkCompetition {
  competitors : list Competitor
}.

Record RawGame := mkRawGame {
  competitions : list Competition;
  status_description : string;          (** [status.type.description] *)
  date : option string                  (** [date], optional *)
}.

(** ** The summarised game (the dictionaries built by [summarize_game]) *)

Record TeamStat := mkTeamStat {
  ts_id : string;
  ts_name : string;
  ts_abbrev : string;
  ts_wins : Z;
  ts_losses : Z;
  ts_pct : Q;
  ts_score : Z;
  ts_home : bool
}.

Record Game := mkGame {
  g_home : TeamStat;
  g_away : TeamStat;
  g_status : string;
  g_start : string
}.

(** [next(c for c in comp if c["homeAway"] == side)] *)
Definition next_side (side : string) (comp : list Competitor)
  : result Competitor :=
  match find (fun c => String.eqb (homeAway c) side) comp with
  | Some c => Ok c
  | None => Raise StopIteration
  end.

(** The nested [team_info] of [summarize_game]. *)
Definition team_info (c : Competitor) : result TeamStat :=
  let record_summary :=
    match records c with
    | r :: _ => match summary r with Some s => s | None => "" end
    | [] => ""
    end in
  let '(wins, losses) := _parse_record record_summary in
  score <- (match score c with
            | Some s => if String.eqb s "" then Ok 0%Z else py_int s
            | None => Ok 0%Z
            end) ;;
  Ok {| ts_id := team_id (team c);
        ts_name := displayName (team c);
        ts_abbrev := match abbreviation (team c) with
                     | Some a => a | None => "" end;
        ts_wins := wins;
        ts_losses := losses;
        ts_pct := if (0 <? wins + losses)%Z
                  then inject_Z wins / inject_Z (Z.max 1 (wins + losses))
                  else 0%Q;
        ts_score := score;
        ts_home := String.eqb (homeAway c) "home" |}.

Definition summarize_game (ev : RawGame) : result Game :=
  comp <- (match competitions ev with
           | c :: _ => Ok (competitors c)
           | [] => Raise IndexError
           end) ;;
  home <- next_side "home" comp ;;
  away <- next_side "away" comp ;;
  h <- team_info home ;;
  a <- team_info away ;;
  Ok {| g_home := h; g_away := a;
        g_status := status_description ev;
        g_start := match date ev with Some d => d | None => "" end |}.

(** ** [predict_winner] *)

(** Python's [x > y] on the [pct] values. *)
Definition py_gt (x y : Q) : bool := negb (Qle_bool x y).

Definition predict_winner (g : Game) : string * string :=
  let home := g_home g in
  let away := g_away g in
  let '(pick, reason) :=
    if py_gt (ts_pct home) (ts_pct away) then (home, ["better record"])
    else if py_gt (ts_pct away) (ts_pct home) then (away, ["better record"])
    else if negb (Z.eqb (ts_score home) (ts_score away)) then
      ((if (ts_score home >? ts_score away)%Z then home else away),
       ["leading now"])
    else (home, ["home edge"]) in
  (ts_name pick, join ", " reason).

(** ** [build_daily_report] *)

(** What [fetch_games(sport)] does: it returns the [events] list, or it
    raises, and [str(e)] is the message of the exception. *)
Inductive FetchOutcome : Type :=
| Fetched (events : list RawGame)
| FetchFailed (msg : string).

(** Per-game line of the report. *)
Definition report_line (g : Game) : string :=
  let '(pick, why) := predict_winner g in
  let matchup := ts_name (g_away g) ++ " @ " ++ ts_name (g_home g) in
  let score := str_of_int (ts_score (g_away g)) ++ "-"
               ++ str_of_int (ts_score (g_home g)) in
  let status := g_status g in
  "• " ++ matchup ++ " — pick: **" ++ pick ++ "** (" ++ why ++ ")  ["
       ++ status ++ "; score " ++ score ++ "]".

(** The [for ev in events] loop: an exception of [summarize_game] leaves
    the loop and the function. *)
Fixpoint report_lines (events : list RawGame) : result (list string) :=
  match events with
  | [] => Ok []
  | ev :: evs =>
      g <- summarize_game ev ;;
      rest <- report_lines evs ;;
      Ok (report_line g :: rest)
  end.

Section Report.

(** The network: one scoreboard request per league. *)
Variable fetch_games : string -> FetchOutcome.

Definition build_daily_report (sport : string) : result string :=
  match fetch_games sport with
  | FetchFailed e => Ok ("❌ Could not fetch " ++ upper sport ++ " games: " ++ e)
  | Fetched events =>
      match events with
      | [] => Ok ("No " ++ upper sport ++ " games found for today.")
      | _ =>
          lines <- report_lines events ;;
          Ok (join (String "010"%char EmptyString)
                   (("📅 " ++ upper sport ++ " games & picks") :: lines))
      end
  end.

(** ** [today_cmd] *)

Definition supported (a : string) : bool :=
  String.eqb a "mlb" || String.eqb a "nfl".

(** The leagues [today_cmd] builds reports for, from [context.args]. *)
Definition to_do (context_args : list string) : list string :=
  let args := map lower context_args in
  let to_do := match args with
               | [] => ["mlb"; "nfl"]
               | _ => filter supported args
               end in
  match to_do with
  | [] => ["mlb"; "nfl"]
  | _ => to_do
  end.

Fixpoint map_result {A B} (f : A -> result B) (xs : list A) : result (list B) :=
  match xs with
  | [] => Ok []
  | x :: xs' => y <- f x ;; ys <- map_result f xs' ;; Ok (y :: ys)
  end.

(** The text [today_cmd] replies with. *)
Definition today_reply (context_args : list string) : result string :=
  parts <- map_result build_daily_report (to_do context_args) ;;
  Ok (join (String "010"%char (String "010"%char EmptyString)) parts).

End Report.

(** ** Configuration and the webhook *)

(** The process environment, [os.environ]. *)
Definition Env := list (string * string).

Definition getenv (env : Env) (key default : string) : string :=
  match find (fun kv => String.eqb (fst kv) key) env with
  | Some (_, v) => v
  | None => default
  end.

Record Config := mkConfig {
  TELEGRAM_BOT_TOKEN : string;
  WEBHOOK_SECRET : string
}.

Definition load_config (env : Env) : Config :=
  {| TELEGRAM_BOT_TOKEN := getenv env "TELEGRAM_BOT_TOKEN" "";
     WEBHOOK_SECRET := getenv env "WEBHOOK_SECRET" "secret123" |}.

(** [on_startup]: [build_bot] raises when the bot token is empty. *)
Definition on_startup (cfg : Config) : option Config :=
  if String.eqb (TELEGRAM_BOT_TOKEN cfg) "" then None else Some cfg.

Inductive WebhookResponse : Type :=
| Forbidden        (** [HTTPException(status_code=403)] *)
| Processed.       (** the update is handed to the bot, [{"ok": True}] *)

Definition telegram_webhook (cfg : Config) (secret : string) : WebhookResponse :=
  if negb (String.eqb secret (WEBHOOK_SECRET cfg)) then Forbidden else Processed.

(** ** [fetch_games] and [_today_params] *)

(** [date.isoformat()]: ['%04d-%02d-%02d']. *)
Record Date := mkDate { year : Z; month : Z; day : Z }.

Definition zfill (w : nat) (s : string) : string :=
  append (String.concat "" (repeat "0" (w - String.length s))) s.

Definition isoformat (d : Date) : string :=
  zfill 4 (str_of_int (year d)) ++ "-" ++ zfill 2 (str_of_int (month d))
  ++ "-" ++ zfill 2 (str_of_int (day d)).

Definition _today_params (today : Date) : list (string * string) :=
  [("dates", isoformat today)].

Definition ESPN_SCOREBOARD : list (string * string) :=
  [("mlb", "https://site.api.espn.com/apis/v2/sports/baseball/mlb/scoreboard");
   ("nfl", "https://site.api.espn.com/apis/v2/sports/football/nfl/scoreboard")].

(** [d[key]] on a dictionary given as an association list. *)
Definition dict_get {V} (key : string) (d : list (string * V)) : option V :=
  match find (fun kv => String.eqb (fst kv) key) d with
  | Some (_, v) => Some v
  | None => None
  end.

(** [str(KeyError(k))], which is [repr(k)]: the key in single quotes (for
    keys without quotes, backslashes or control characters). *)
Definition key_error_message (k : string) : string := "'" ++ k ++ "'".

(** The JSON body as [r.json()] and [data.get("events", [])] see it. *)
Inductive JsonBody : Type :=
| InvalidJson (msg : string)            (** [r.json()] raises *)
| JsonNotObject (msg : string)          (** [data.get] raises [AttributeError] *)
| JsonObject (events : option (list RawGame)).
    (** [None]: no [events] key, or [events] is [null]; both make
        [build_daily_report] see no games *)

Record HttpResponse := mkHttpResponse {
  status_code : Z;
  http_reason : string;
  http_url : string;                    (** the URL with its query string *)
  body : JsonBody
}.

(** The outcome of [requests.get(url, params=..., timeout=20)]. *)
Inductive Transport : Type :=
| TransportError (msg : string)         (** connection error, timeout, ... *)
| Received (r : HttpResponse).

(** [r.raise_for_status()]: [Some msg] when it raises [HTTPError(msg)]. *)
Definition raise_for_status (r : HttpResponse) : option string :=
  let code := status_code r in
  if (400 <=? code)%Z && (code <? 500)%Z then
    Some (str_of_int code ++ " Client Error: " ++ http_reason r
          ++ " for url: " ++ http_url r)
  else if (500 <=? code)%Z && (code <? 600)%Z then
    Some (str_of_int code ++ " Server Error: " ++ http_reason r
          ++ " for url: " ++ http_url r)
  else None.

(** [fetch_games], with the network [http] and the local date [today]. *)
Definition fetch_games_http (http : string -> list (string * string) -> Transport)
    (today : Date) (sport : string) : FetchOutcome :=
  match dict_get sport ESPN_SCOREBOARD with
  | None => FetchFailed (key_error_message sport)
  | Some url =>
      match http url (_today_params today) with
      | TransportError msg => FetchFailed msg
      | Received r =>
          match raise_for_status r with
          | Some msg => FetchFailed msg
          | None =>
              match body r with
              | InvalidJson msg => FetchFailed msg
              | JsonNotObject msg => FetchFailed msg
              | JsonObject (Some events) => Fetched events
              | JsonObject None => Fetched []
              end
          end
      end
  end.

(** ** Webhook registration in [on_startup] *)

(** [os.getenv(key)]: [None] when unset. *)
Definition getenv_opt (env : Env) (key : string) : option string :=
  dict_get key env.

(** [os.getenv("RENDER_EXTERNAL_URL") or os.getenv("PUBLIC_URL")] *)
Definition PUBLIC_URL (env : Env) : option string :=
  match getenv_opt env "RENDER_EXTERNAL_URL" with
  | Some u => if String.eqb u "" then getenv_opt env "PUBLIC_URL" else Some u
  | None => getenv_opt env "PUBLIC_URL"
  end.

(** The address [on_startup] passes to [set_webhook]: [None] when startup
    fails in [build_bot], [Some None] when no webhook is set. *)
Definition startup_webhook_url (env : Env) : option (option string) :=
  match on_startup (load_config env) with
  | None => None
  | Some cfg =>
      Some (match PUBLIC_URL env with
            | Some u =>
                if String.eqb u "" || String.eqb (WEBHOOK_SECRET cfg) "" then None
                else Some (u ++ "/webhook/" ++ WEBHOOK_SECRET cfg)
            | None => None
            end)
  end.

(** Value of a decimal digit list, most significant digit first. *)
Fixpoint uint_value_acc (d : Decimal.uint) (acc : Z) : Z :=
  match d with
  | Decimal.Nil => acc
  | Decimal.D0 d => uint_value_acc d (10 * acc + 0)
  | Decimal.D1 d => uint_value_acc d (10 * acc + 1)
  | Decimal.D2 d => uint_value_acc d (10 * acc + 2)
  | Decimal.D3 d => uint_value_acc d (10 * acc + 3)
  | Decimal.D4 d => uint_value_acc d (10 * acc + 4)
  | Decimal.D5 d => uint_value_acc d (10 * acc + 5)
  | Decimal.D6 d => uint_value_acc d (10 * acc + 6)
  | Decimal.D7 d => uint_value_acc d (10 * acc + 7)
  | Decimal.D8 d => uint_value_acc d (10 * acc + 8)
  | Decimal.D9 d => uint_value_acc d (10 * acc + 9)
  end.

(** ** Spec-side definitions *)

(** The tie-break ladder as the specification words it: the rule that
    applies determines the picked team and the reason. *)
Inductive Ladder (g : Game) : string -> string -> Prop :=
| ladder_home_record :
    (ts_pct (g_away g) < ts_pct (g_home g))%Q ->
    Ladder g (ts_name (g_home g)) "better record"
| ladder_away_record :
    (ts_pct (g_home g) < ts_pct (g_away g))%Q ->
    Ladder g (ts_name (g_away g)) "better record"
| ladder_home_leading :
    (ts_pct (g_home g) == ts_pct (g_away g))%Q ->
    (ts_score (g_away g) < ts_score (g_home g))%Z ->
    Ladder g (ts_name (g_home g)) "leading now"
| ladder_away_leading :
    (ts_pct (g_home g) == ts_pct (g_away g))%Q ->
    (ts_score (g_home g) < ts_score (g_away g))%Z ->
    Ladder g (ts_name (g_away g)) "leading now"
| ladder_home_edge :
    (ts_pct (g_home g) == ts_pct (g_away g))%Q ->
    ts_score (g_home g) = ts_score (g_away g) ->
    Ladder g (ts_name (g_home g)) "home edge".

(** Every character of [s] satisfies [p]. *)
Fixpoint all_chars (p : ascii -> bool) (s : string) : bool :=
  match s with
  | EmptyString => true
  | String c s' => p c && all_chars p s'
  end.

Definition non_digit (c : ascii) : bool := negb (is_digit c).

Definition nonempty (s : string) : bool :=
  match s with EmptyString => false | _ => true end.



(** Whether [competitions[0].competitors] holds a [side] competitor. *)
Definition has_side (side : string) (ev : RawGame) : bool :=
  match competitions ev with
  | c :: _ => existsb (fun x => String.eqb (homeAway x) side) (competitors c)
  | [] => false
  end.

(** The report line in the words of the specification. *)
Definition spec_line (g : Game) : string :=
  "• " ++ ts_name (g_away g) ++ " @ " ++ ts_name (g_home g)
  ++ " — pick: **" ++ fst (predict_winner g) ++ "** ("
  ++ snd (predict_winner g) ++ ")  [" ++ g_status g ++ "; score "
  ++ str_of_int (ts_score (g_away g)) ++ "-" ++ str_of_int (ts_score (g_home g))
  ++ "]".

(** Sample scoreboard data. *)
Definition sample_competitor (side score record : string) : Competitor :=
  mkCompetitor side (mkTeam "1" (side ++ " team") (Some "T"))
    [mkRecordEntry (Some record)] (Some score).

Definition sample_event : RawGame :=
  mkRawGame [mkCompetition [sample_competitor "away" "3" "5-5";
                            sample_competitor "home" "5" "6-4"]]
    "Final" (Some "2025-05-01T17:00Z").

Definition sample_event_no_home : RawGame :=
  mkRawGame [mkCompetition [sample_competitor "away" "3" "5-5"]]
    "Final" (Some "2025-05-01T17:00Z").


(** ** Lemmas on the predictor *)

Lemma py_gt_true (x y : Q) : py_gt x y = true <-> (y < x)%Q.
Proof.
  unfold py_gt. rewrite negb_true_iff. split.
  - intro H. apply Qnot_le_lt. intro Hle.
    apply Qle_bool_iff in Hle. congruence.
  - intro H. destruct (Qle_bool x y) eqn:E; [|reflexivity].
    apply Qle_bool_iff in E. exfalso. apply (Qlt_not_le y x); assumption.
Qed.

Lemma py_gt_false (x y : Q) : py_gt x y = false <-> (x <= y)%Q.
Proof.
  unfold py_gt. rewrite negb_false_iff. apply Qle_bool_iff.
Qed.

Ltac py_gt_cases :=
  repeat match goal with
  | H : py_gt _ _ = true |- _ => apply py_gt_true in H
  | H : py_gt _ _ = false |- _ => apply py_gt_false in H
  end.

Lemma predict_winner_ladder (g : Game) :
  Ladder g (fst (predict_winner g)) (snd (predict_winner g)).
Proof.
  unfold predict_winner.
  destruct (py_gt (ts_pct (g_home g)) (ts_pct (g_away g))) eqn:E1;
    [|destruct (py_gt (ts_pct (g_away g)) (ts_pct (g_home g))) eqn:E2];
    py_gt_cases; simpl.
  - apply ladder_home_record; assumption.
  - apply ladder_away_record; assumption.
  - assert (Heq : (ts_pct (g_home g) == ts_pct (g_away g))%Q)
      by (apply Qle_antisym; assumption).
    destruct (Z.eqb (ts_score (g_home g)) (ts_score (g_away g))) eqn:E3;
      simpl.
    + apply Z.eqb_eq in E3. apply ladder_home_edge; assumption.
    + apply Z.eqb_neq in E3.
      destruct (ts_score (g_home g) >? ts_score (g_away g))%Z eqn:E4; simpl.
      * apply Z.gtb_lt in E4. apply ladder_home_leading; assumption.
      * apply ladder_away_leading; [assumption|].
        rewrite Z.gtb_ltb in E4. apply Z.ltb_ge in E4. lia.
Qed.

Lemma ladder_functional (g : Game) (p r p' r' : string) :
  Ladder g p r -> Ladder g p' r' -> (p, r) = (p', r').
Proof.
  intros H1 H2.
  destruct H1; inversion H2; subst; try reflexivity;
    match goal with
    | H : (?a < ?b)%Q, H' : (?b < ?a)%Q |- _ =>
        exfalso; apply (Qlt_not_le a b H); apply Qlt_le_weak; exact H'
    | H : (?a < ?b)%Q, H' : (?a == ?b)%Q |- _ =>
        exfalso; rewrite H' in H; apply (Qlt_irrefl _ H)
    | H : (?a < ?b)%Q, H' : (?b == ?a)%Q |- _ =>
        exfalso; rewrite H' in H; apply (Qlt_irrefl _ H)
    | _ => exfalso; lia
    end.
Qed.

(** ** Lemmas on [re.findall(r"\d+", ...)] *)

Lemma str_app_assoc (a b c : string) : (a ++ b) ++ c = a ++ (b ++ c).
Proof. induction a as [|x a IH]; simpl; [reflexivity|now rewrite IH]. Qed.

Lemma str_app_nil_r (a : string) : a ++ "" = a.
Proof. induction a as [|x a IH]; simpl; [reflexivity|now rewrite IH]. Qed.


Lemma findall_nondigits (p s : string) :
  all_chars non_digit p = true ->
  findall_digits_aux (p ++ s) "" = findall_digits_aux s "".
Proof.
  induction p as [|c p IH]; simpl; [reflexivity|].
  intro H. apply andb_true_iff in H as [Hc Hp]. unfold non_digit in Hc.
  apply negb_true_iff in Hc. rewrite Hc. apply IH, Hp.
Qed.

Lemma findall_digit_run (r s cur : string) :
  all_chars is_digit r = true ->
  findall_digits_aux (r ++ s) cur = findall_digits_aux s (cur ++ r).
Proof.
  revert cur. induction r as [|c r IH]; intros cur H; simpl.
  - now rewrite str_app_nil_r.
  - apply andb_true_iff in H as [Hc Hr]. rewrite Hc, IH by exact Hr.
    now rewrite str_app_assoc.
Qed.

Lemma findall_end_of_run (s cur : string) :
  nonempty cur = true ->
  (s = "" \/ exists c s', s = String c s' /\ is_digit c = false) ->
  exists rest, findall_digits_aux s cur = cur :: rest.
Proof.
  intros Hcur [-> | (c & s' & -> & Hc)]; simpl.
  - destruct cur; [discriminate|]. eexists; reflexivity.
  - rewrite Hc. destruct cur; [discriminate|]. eexists; reflexivity.
Qed.



Lemma findall_separator (m s cur : string) :
  nonempty cur = true -> nonempty m = true ->
  all_chars non_digit m = true ->
  findall_digits_aux (m ++ s) cur = cur :: findall_digits_aux s "".
Proof.
  intros Hcur Hm Hnd. destruct m as [|c m']; [discriminate|]. simpl in *.
  apply andb_true_iff in Hnd as [Hc Hm']. unfold non_digit in Hc.
  apply negb_true_iff in Hc. rewrite Hc.
  destruct cur; [discriminate|]. f_equal. now apply findall_nondigits.
Qed.

Lemma digits_value_acc_nonneg (acc : Z) (s : string) :
  (0 <= acc)%Z -> (0 <= digits_value_acc acc s)%Z.
Proof.
  revert acc. induction s as [|c s IH]; intros acc H;
    cbn [digits_value_acc]; [exact H|].
  apply IH. unfold digit_value.
  pose proof (Nat2Z.is_nonneg (nat_of_ascii c - 48)). lia.
Qed.

Lemma parse_record_nonneg (s : string) :
  (0 <= fst (_parse_record s))%Z /\ (0 <= snd (_parse_record s))%Z.
Proof.
  unfold _parse_record.
  destruct (findall_digits s) as [|x [|y l]]; simpl; try lia.
  unfold digits_value. split; apply digits_value_acc_nonneg; reflexivity.
Qed.

(** ** Lemmas on [team_info] and [summarize_game] *)

Lemma team_info_pct (c : Competitor) (t : TeamStat) :
  team_info c = Ok t ->
  (0 <= ts_wins t)%Z /\ (0 <= ts_losses t)%Z /\
  ((ts_wins t + ts_losses t = 0)%Z -> ts_pct t = 0%Q) /\
  ((ts_wins t + ts_losses t <> 0)%Z ->
   ts_pct t = (inject_Z (ts_wins t) / inject_Z (ts_wins t + ts_losses t))%Q).
Proof.
  unfold team_info.
  set (rs := match records c with
             | r :: _ => match summary r with Some s => s | None => "" end
             | [] => "" end).
  pose proof (parse_record_nonneg rs) as [Hw Hl].
  destruct (_parse_record rs) as [w l]. simpl in Hw, Hl.
  destruct (match score c with
            | Some s => if String.eqb s "" then Ok 0%Z else py_int s
            | None => Ok 0%Z end) as [sc|e]; simpl; intro H;
    [|discriminate].
  injection H as <-. simpl. repeat split; try assumption.
  - intro H0. rewrite H0. reflexivity.
  - intro H0. destruct (0 <? w + l)%Z eqn:E.
    + rewrite Z.max_r by lia. reflexivity.
    + apply Z.ltb_ge in E. lia.
Qed.


Lemma find_existsb_none {A} (f : A -> bool) (l : list A) :
  existsb f l = false -> find f l = None.
Proof.
  induction l as [|x l IH]; simpl; [reflexivity|].
  intro H. apply orb_false_iff in H as [Hx Hl]. rewrite Hx. auto.
Qed.

Lemma summarize_game_malformed (ev : RawGame) :
  has_side "home" ev = false \/ has_side "away" ev = false ->
  (competitions ev = [] /\ summarize_game ev = Raise IndexError) \/
  summarize_game ev = Raise StopIteration.
Proof.
  unfold has_side, summarize_game. intro H.
  destruct (competitions ev) as [|c cs]; [left; auto|right]. simpl.
  unfold next_side.
  destruct H as [H|H]; apply find_existsb_none in H.
  - rewrite H. reflexivity.
  - destruct (find (fun c0 => String.eqb (homeAway c0) "home")
                (competitors c)); simpl; [|reflexivity].
    rewrite H. reflexivity.
Qed.

(** ** Lemmas on the report loop *)

Lemma report_lines_ok (evs : list RawGame) (gs : list Game) :
  Forall2 (fun ev g => summarize_game ev = Ok g) evs gs ->
  report_lines evs = Ok (map report_line gs).
Proof.
  induction 1 as [|ev g evs gs Hg _ IH]; simpl; [reflexivity|].
  rewrite Hg. simpl. rewrite IH. reflexivity.
Qed.

Lemma report_lines_raise (pre post : list RawGame) (ev : RawGame) (e : exn) :
  Forall (fun ev' => exists g, summarize_game ev' = Ok g) pre ->
  summarize_game ev = Raise e ->
  report_lines (pre ++ ev :: post) = Raise e.
Proof.
  intros Hpre Hev. induction Hpre as [|ev' pre (g & Hg) _ IH]; simpl.
  - rewrite Hev. reflexivity.
  - rewrite Hg. simpl. rewrite IH. reflexivity.
Qed.

Lemma report_lines_in_raise (evs : list RawGame) (ev : RawGame) (e : exn) :
  In ev evs -> summarize_game ev = Raise e ->
  exists e', report_lines evs = Raise e'.
Proof.
  intros Hin Hev. induction evs as [|x evs IH]; [destruct Hin|].
  simpl. destruct Hin as [<-|Hin].
  - rewrite Hev. simpl. eauto.
  - destruct (summarize_game x) as [g|e']; simpl; [|eauto].
    destruct (IH Hin) as [e' ->]. simpl. eauto.
Qed.

Lemma report_line_spec (g : Game) : report_line g = spec_line g.
Proof.
  unfold report_line, spec_line. destruct (predict_winner g) as [p w].
  simpl. repeat rewrite str_app_assoc. reflexivity.
Qed.

Lemma supported_cases (a : string) :
  supported a = true -> a = "mlb" \/ a = "nfl".
Proof.
  unfold supported. intro H. apply orb_true_iff in H as [H|H];
    apply String.eqb_eq in H; auto.
Qed.

Lemma filter_nil_forall {A} (f : A -> bool) (l : list A) :
  Forall (fun a => f a = false) l -> filter f l = [].
Proof. induction 1 as [|x l Hx _ IH]; simpl; [reflexivity|now rewrite Hx]. Qed.

Lemma to_do_filtered (args : list string) :
  filter supported (map lower args) <> [] ->
  to_do args = filter supported (map lower args).
Proof.
  unfold to_do. intro H.
  destruct (map lower args) as [|x l] eqn:E; [contradiction|].
  destruct (filter supported (x :: l)); [contradiction|reflexivity].
Qed.

(** * Claims *)

(** C1. [predict_winner] follows the tie-break ladder: the pair it returns
    is the one the applicable rule of the ladder gives (strictly higher
    [pct]: "better record"; equal [pct], different scores: the higher
    scorer, "leading now"; otherwise the home team, "home edge"), and no
    rule gives another pair. *)
Theorem predict_winner_tie_break_ladder (g : Game) :
  Ladder g (fst (predict_winner g)) (snd (predict_winner g)) /\
  (forall p r, Ladder g p r -> predict_winner g = (p, r)).
Proof.
  split; [apply predict_winner_ladder|].
  intros p r H. rewrite (surjective_pairing (predict_winner g)).
  apply (ladder_functional g); [apply predict_winner_ladder|exact H].
Qed.

Lemma predict_winner_tie_break_ladder_witness :
  exists g, summarize_game sample_event = Ok g /\
            predict_winner g = ("home team", "better record").
Proof.
  eexists. split; [vm_compute; reflexivity|].
  apply (proj2 (predict_winner_tie_break_ladder _)).
  apply ladder_home_record. vm_compute. reflexivity.
Defined.

(** C2 (as stated, refuted). When the fetch fails the text does not begin
    with "Could not fetch": it begins with the cross mark emoji. *)
Lemma build_daily_report_fetch_failed_cx :
  build_daily_report (fun _ => FetchFailed "timeout") "mlb"
  = Ok "❌ Could not fetch MLB games: timeout" /\
  String.prefix "Could not fetch MLB games:"
    "❌ Could not fetch MLB games: timeout" = false.
Proof. split; vm_compute; reflexivity. Qed.

(** C2 (amended). When the fetch fails, [build_daily_report] returns (does
    not raise) the text "❌ Could not fetch {LEAGUE} games: {message}". *)
Theorem build_daily_report_fetch_failed
    (fetch_games : string -> FetchOutcome) (sport msg : string) :
  fetch_games sport = FetchFailed msg ->
  build_daily_report fetch_games sport
  = Ok ("❌ Could not fetch " ++ upper sport ++ " games: " ++ msg).
Proof. intro H. unfold build_daily_report. rewrite H. reflexivity. Qed.

Lemma build_daily_report_fetch_failed_witness :
  build_daily_report (fun _ => FetchFailed "timeout") "nfl"
  = Ok "❌ Could not fetch NFL games: timeout".
Proof. apply (build_daily_report_fetch_failed _ "nfl" "timeout"). reflexivity.
Defined.





(** C5. [/today] league selection: no arguments, or no argument matching a
    supported league after lower-casing, selects mlb then nfl; otherwise
    exactly the matching lower-cased arguments are selected; every
    selected league is supported, and every matching argument is
    selected. *)
Theorem to_do_selection (args : list string) :
  (args = [] -> to_do args = ["mlb"; "nfl"]) /\
  (Forall (fun a => supported (lower a) = false) args ->
   to_do args = ["mlb"; "nfl"]) /\
  (Exists (fun a => supported (lower a) = true) args ->
   to_do args = filter supported (map lower args)) /\
  (forall a, In a (to_do args) -> a = "mlb" \/ a = "nfl") /\
  (forall a, In a args -> supported (lower a) = true ->
   In (lower a) (to_do args)).
Proof.
  assert (Hsome : forall a, In a args -> supported (lower a) = true ->
            to_do args = filter supported (map lower args) /\
            In (lower a) (to_do args)).
  { intros a Hin Hs.
    assert (Hf : In (lower a) (filter supported (map lower args)))
      by (apply filter_In; split; [apply in_map; exact Hin|exact Hs]).
    rewrite to_do_filtered by (intro E; rewrite E in Hf; destruct Hf).
    split; [reflexivity|exact Hf]. }
  split; [|split; [|split; [|split]]].
  - intros ->. reflexivity.
  - intro H. unfold to_do.
    assert (Hmap : Forall (fun a => supported a = false) (map lower args)).
    { apply Forall_map. exact H. }
    rewrite (filter_nil_forall _ _ Hmap).
    destruct (map lower args); reflexivity.
  - intro H. apply Exists_exists in H as (a & Hin & Hs).
    apply (Hsome a Hin Hs).
  - intros a Hin.
    destruct (existsb (fun x => supported (lower x)) args) eqn:E.
    + apply existsb_exists in E as (x & Hx & Hs).
      destruct (Hsome x Hx Hs) as [Heq _]. rewrite Heq in Hin.
      apply filter_In in Hin as [_ Ha]. apply supported_cases, Ha.
    + assert (Hn : to_do args = ["mlb"; "nfl"]).
      { unfold to_do.
        assert (Hf : filter supported (map lower args) = []).
        { apply filter_nil_forall, Forall_map, Forall_forall.
          intros x Hx. destruct (supported (lower x)) eqn:Ex; [|reflexivity].
          rewrite <- E. symmetry. apply existsb_exists. eauto. }
        rewrite Hf. destruct (map lower args); reflexivity. }
      rewrite Hn in Hin. simpl in Hin. intuition.
  - intros a Hin Hs. apply (Hsome a Hin Hs).
Qed.

Lemma to_do_selection_witness :
  to_do ["MLB"; "xyz"] = ["mlb"] /\ to_do ["xyz"] = ["mlb"; "nfl"] /\
  to_do [] = ["mlb"; "nfl"].
Proof.
  destruct (to_do_selection ["MLB"; "xyz"]) as (_ & _ & H1 & _).
  destruct (to_do_selection ["xyz"]) as (_ & H2 & _).
  destruct (to_do_selection []) as (H3 & _).
  split; [|split].
  - rewrite H1; [reflexivity|]. apply Exists_cons_hd. reflexivity.
  - apply H2. repeat constructor.
  - apply H3. reflexivity.
Defined.

(** C6. A raw game without a home or without an away competitor makes
    [summarize_game] raise ([StopIteration] from [next], or [IndexError]
    when there is no competition at all), and [build_daily_report] does
    not catch it: a fetched list holding such a game makes the whole
    report raise, with that very exception when the games before it are
    well formed. *)
Theorem malformed_game_propagates (ev : RawGame) :
  has_side "home" ev = false \/ has_side "away" ev = false ->
  (competitions ev <> [] -> summarize_game ev = Raise StopIteration) /\
  (exists e, summarize_game ev = Raise e /\
    forall fetch_games sport pre post,
      fetch_games sport = Fetched (pre ++ ev :: post) ->
      Forall (fun ev' => exists g, summarize_game ev' = Ok g) pre ->
      build_daily_report fetch_games sport = Raise e) /\
  (forall fetch_games sport evs,
     fetch_games sport = Fetched evs -> In ev evs ->
     exists e, build_daily_report fetch_games sport = Raise e).
Proof.
  intro Hm.
  assert (He : exists e, summarize_game ev = Raise e).
  { destruct (summarize_game_malformed ev Hm) as [[_ H]|H]; eauto. }
  destruct He as [e He].
  split; [|split].
  - intro Hc. destruct (summarize_game_malformed ev Hm) as [[H _]|H];
      [contradiction|exact H].
  - exists e. split; [exact He|].
    intros fetch_games sport pre post Hf Hpre.
    unfold build_daily_report. rewrite Hf.
    rewrite (report_lines_raise pre post ev e Hpre He).
    destruct pre; reflexivity.
  - intros fetch_games sport evs Hf Hin.
    unfold build_daily_report. rewrite Hf.
    destruct (report_lines_in_raise evs ev e Hin He) as [e' He'].
    rewrite He'. destruct evs; [destruct Hin|]. exists e'. reflexivity.
Qed.

Lemma malformed_game_propagates_witness :
  build_daily_report (fun _ => Fetched [sample_event; sample_event_no_home]) "mlb"
  = Raise StopIteration.
Proof.
  destruct (malformed_game_propagates sample_event_no_home
              (or_introl eq_refl)) as (_ & (e & He & Hb) & _).
  assert (Hst : summarize_game sample_event_no_home = Raise StopIteration)
    by (vm_compute; reflexivity).
  rewrite He in Hst. injection Hst as <-.
  apply (Hb _ "mlb" [sample_event] []); [reflexivity|].
  repeat constructor. eexists. vm_compute. reflexivity.
Defined.




(** C8 (as stated, refuted). A non-empty fetched list does not always give
    the header and the game lines: a game without a home competitor makes
    the report raise. *)
Lemma build_daily_report_lines_cx :
  build_daily_report (fun _ => Fetched [sample_event_no_home]) "mlb"
  = Raise StopIteration.
Proof. vm_compute. reflexivity. Qed.

(** C8 (amended). When the fetch gives a non-empty list of games that all
    summarise without error, the report is the header line followed by one
    line per game in source order, newline-joined, each line in the
    specified format with the away score first. *)
Theorem build_daily_report_lines (fetch_games : string -> FetchOutcome)
    (sport : string) (evs : list RawGame) (gs : list Game) :
  fetch_games sport = Fetched evs -> evs <> [] ->
  Forall2 (fun ev g => summarize_game ev = Ok g) evs gs ->
  build_daily_report fetch_games sport
  = Ok (join (String "010"%char EmptyString)
          (("📅 " ++ upper sport ++ " games & picks") :: map spec_line gs)).
Proof.
  intros Hf Hne Hgs. unfold build_daily_report. rewrite Hf.
  rewrite (report_lines_ok evs gs Hgs).
  assert (Hmap : map report_line gs = map spec_line gs)
    by (apply map_ext, report_line_spec).
  rewrite Hmap. destruct evs; [contradiction|reflexivity].
Qed.

Lemma build_daily_report_lines_witness :
  exists g, summarize_game sample_event = Ok g /\
  build_daily_report (fun _ => Fetched [sample_event; sample_event]) "mlb"
  = Ok (join (String "010"%char EmptyString)
          ["📅 MLB games & picks"; spec_line g; spec_line g]).
Proof.
  eexists. split; [vm_compute; reflexivity|].
  match goal with
  | |- _ = Ok (join _ [_; spec_line ?x; _]) =>
      apply (build_daily_report_lines _ "mlb" [sample_event; sample_event] [x; x])
  end.
  - reflexivity.
  - discriminate.
  - repeat constructor; vm_compute; reflexivity.
Defined.

(** C9. When the fetch gives no games, the report is exactly
    "No {LEAGUE} games found for today." with the league upper-cased. *)
Theorem build_daily_report_no_games (fetch_games : string -> FetchOutcome)
    (sport : string) :
  fetch_games sport = Fetched [] ->
  build_daily_report fetch_games sport
  = Ok ("No " ++ upper sport ++ " games found for today.").
Proof. intro H. unfold build_daily_report. rewrite H. reflexivity. Qed.

Lemma build_daily_report_no_games_witness :
  build_daily_report (fun _ => Fetched []) "nfl"
  = Ok "No NFL games found for today.".
Proof. apply (build_daily_report_no_games _ "nfl"). reflexivity. Defined.

(** C10. The pick is the home or the away team's name, and the reason is
    exactly one of "better record", "leading now", "home edge". *)
Theorem predict_winner_pick_and_reason (g : Game) :
  (fst (predict_winner g) = ts_name (g_home g) \/
   fst (predict_winner g) = ts_name (g_away g)) /\
  In (snd (predict_winner g)) ["better record"; "leading now"; "home edge"].
Proof.
  destruct (predict_winner_ladder g) as [H|H|H H'|H H'|H H'];
    simpl; auto.
Qed.

(** * Further properties of the code *)

(** ** Decimal strings: [str(n)] read back *)

Lemma digits_value_string_of_uint (d : Decimal.uint) (acc : Z) :
  digits_value_acc acc (NilEmpty.string_of_uint d) = uint_value_acc d acc.
Proof.
  revert acc.
  induction d; intro acc; cbn [NilEmpty.string_of_uint digits_value_acc uint_value_acc];
    try rewrite IHd; reflexivity.
Qed.

Lemma uint_value_pos (d : Decimal.uint) (p : positive) :
  uint_value_acc d (Z.pos p) = Z.pos (Pos.of_uint_acc d p).
Proof.
  revert p.
  induction d; intro p; cbn [uint_value_acc Pos.of_uint_acc]; try reflexivity;
    rewrite <- IHd; f_equal; lia.
Qed.

Lemma uint_value_of_uint (d : Decimal.uint) :
  uint_value_acc d 0 = Z.of_uint d.
Proof.
  induction d; cbn [uint_value_acc]; unfold Z.of_uint in *; simpl;
    try exact IHd; try reflexivity; apply uint_value_pos.
Qed.

Lemma all_digits_string_of_uint (d : Decimal.uint) :
  all_chars is_digit (NilEmpty.string_of_uint d) = true.
Proof. induction d; simpl; auto. Qed.

Lemma str_of_int_shape (n : Z) :
  exists u, u <> Decimal.Nil /\
  ((0 <= n)%Z /\ str_of_int n = NilEmpty.string_of_uint u /\
   uint_value_acc u 0 = n \/
   (n < 0)%Z /\ str_of_int n = String "-" (NilEmpty.string_of_uint u) /\
   uint_value_acc u 0 = (- n)%Z).
Proof.
  pose proof (DecimalZ.of_to n) as Hof.
  unfold str_of_int. destruct n as [|p|p].
  - exists (Decimal.D0 Decimal.Nil). split; [discriminate|].
    left. repeat split; reflexivity.
  - exists (Pos.to_uint p). simpl in Hof |- *.
    rewrite uint_value_of_uint.
    split; [intro E; rewrite E in Hof; discriminate|].
    left. split; [lia|split; [reflexivity|exact Hof]].
  - exists (Pos.to_uint p). simpl in Hof |- *.
    rewrite uint_value_of_uint.
    assert (E : Z.of_uint (Pos.to_uint p) = Z.pos p) by lia.
    split; [intro E'; rewrite E' in E; discriminate|].
    right. split; [lia|split; [reflexivity|exact E]].
Qed.

Lemma str_of_int_nonneg (n : Z) :
  (0 <= n)%Z ->
  all_chars is_digit (str_of_int n) = true /\
  nonempty (str_of_int n) = true /\ digits_value (str_of_int n) = n.
Proof.
  intro Hn. destruct (str_of_int_shape n) as (u & Hu & [(_ & -> & Hv)|(H & _)]);
    [|lia].
  split; [apply all_digits_string_of_uint|split].
  - destruct u; simpl; congruence.
  - unfold digits_value. rewrite digits_value_string_of_uint. exact Hv.
Qed.

(** The separator and tail cases of [re.findall] on two runs. *)
Lemma parse_record_two_runs (p r1 m r2 t : string) :
  all_chars non_digit p = true ->
  nonempty r1 = true -> all_chars is_digit r1 = true ->
  nonempty m = true -> all_chars non_digit m = true ->
  nonempty r2 = true -> all_chars is_digit r2 = true ->
  (t = "" \/ exists c t', t = String c t' /\ is_digit c = false) ->
  _parse_record (p ++ r1 ++ m ++ r2 ++ t) = (digits_value r1, digits_value r2).
Proof.
  intros Hp Hr1 Dr1 Hm Dm Hr2 Dr2 Ht.
  unfold _parse_record, findall_digits.
  rewrite findall_nondigits by exact Hp.
  rewrite findall_digit_run by exact Dr1. simpl.
  rewrite findall_separator by assumption.
  rewrite findall_digit_run by exact Dr2. simpl.
  destruct (findall_end_of_run t r2 Hr2 Ht) as [rest ->].
  reflexivity.
Qed.

(** [int(...)] on strings without whitespace. *)
Lemma all_digits_not_space (s : string) :
  all_chars is_digit s = true ->
  Forall (fun c => is_py_space c = false) (list_ascii_of_string s).
Proof.
  induction s as [|c s IH]; simpl; [constructor|].
  intro H. apply andb_true_iff in H as [Hc Hs]. constructor; [|auto].
  unfold is_digit in Hc. unfold is_py_space.
  apply andb_true_iff in Hc as [H1 H2].
  apply Nat.leb_le in H1, H2.
  apply orb_false_iff; split; apply andb_false_iff;
    right; apply Nat.leb_gt; lia.
Qed.

Lemma lstrip_nospace (l : list ascii) :
  Forall (fun c => is_py_space c = false) l -> lstrip l = l.
Proof. destruct 1; simpl; [reflexivity|]. rewrite H. reflexivity. Qed.

Lemma strip_nospace (l : list ascii) :
  Forall (fun c => is_py_space c = false) l -> strip l = l.
Proof.
  intro H. unfold strip. rewrite (lstrip_nospace l H).
  rewrite lstrip_nospace by (apply Forall_rev; exact H).
  apply rev_involutive.
Qed.

Lemma underscored_digits_all (s : string) (acc : Z) :
  all_chars is_digit s = true ->
  underscored_digits (list_ascii_of_string s) acc false
  = Some (digits_value_acc acc s).
Proof.
  revert acc. induction s as [|c s IH]; intros acc H; [reflexivity|].
  cbn [all_chars] in H. apply andb_true_iff in H as [Hc Hs].
  cbn [list_ascii_of_string underscored_digits digits_value_acc].
  rewrite Hc. apply IH, Hs.
Qed.

(** Python's sign test in [int()] on a first character that is neither
    sign. *)
Lemma py_int_sign_other (c : ascii) (l : list ascii) :
  c <> "-"%char -> c <> "+"%char ->
  match c :: l with
  | "-"%char :: l => option_map Z.opp (int_literal l)
  | "+"%char :: l => int_literal l
  | l => int_literal l
  end = int_literal (c :: l).
Proof.
  intros H1 H2.
  destruct c as [[] [] [] [] [] [] [] []]; try reflexivity;
    exfalso; [apply H2|apply H1]; reflexivity.
Qed.

Lemma int_literal_digits (s : string) :
  all_chars is_digit s = true -> nonempty s = true ->
  int_literal (list_ascii_of_string s) = Some (digits_value s).
Proof.
  intros Hd Hne. destruct s as [|c s]; [discriminate|].
  cbn [all_chars] in Hd. apply andb_true_iff in Hd as [Hc Hs].
  cbn [list_ascii_of_string int_literal].
  rewrite Hc, underscored_digits_all by exact Hs.
  unfold digits_value. cbn [digits_value_acc].
  rewrite Z.mul_0_r, Z.add_0_l. reflexivity.
Qed.

Lemma py_int_digits (s : string) :
  all_chars is_digit s = true -> nonempty s = true ->
  py_int s = Ok (digits_value s).
Proof.
  intros Hd Hne. unfold py_int.
  rewrite strip_nospace by (apply all_digits_not_space, Hd).
  pose proof (int_literal_digits s Hd Hne) as HL.
  destruct s as [|c s]; [discriminate|].
  cbn [all_chars] in Hd. apply andb_true_iff in Hd as [Hc Hs].
  cbn [list_ascii_of_string] in HL |- *.
  rewrite py_int_sign_other by (intro E; subst c; discriminate).
  rewrite HL. reflexivity.
Qed.

Lemma py_int_str_of_int_lemma (n : Z) : py_int (str_of_int n) = Ok n.
Proof.
  destruct (str_of_int_shape n) as (u & Hu & [(Hn & -> & Hv)|(Hn & -> & Hv)]);
    assert (Hne : nonempty (NilEmpty.string_of_uint u) = true)
      by (destruct u; simpl; congruence);
    pose proof (all_digits_string_of_uint u) as Hd.
  - rewrite py_int_digits by assumption.
    unfold digits_value. rewrite digits_value_string_of_uint, Hv.
    reflexivity.
  - unfold py_int.
    rewrite strip_nospace
      by (constructor; [reflexivity|apply all_digits_not_space, Hd]).
    cbn [list_ascii_of_string].
    rewrite int_literal_digits by assumption. cbn [option_map].
    unfold digits_value. rewrite digits_value_string_of_uint, Hv.
    f_equal. lia.
Qed.

(** ** Helpers on [team_info] and [summarize_game] *)

Lemma team_info_ok_inv (c : Competitor) (t : TeamStat) :
  team_info c = Ok t ->
  ts_id t = team_id (team c) /\ ts_name t = displayName (team c) /\
  ts_home t = String.eqb (homeAway c) "home" /\
  (ts_wins t, ts_losses t)
  = _parse_record match records c with
                  | r :: _ => match summary r with Some s => s | None => "" end
                  | [] => "" end.
Proof.
  unfold team_info.
  destruct (_parse_record _) as [w l] eqn:E.
  destruct (match score c with
            | Some s => if String.eqb s "" then Ok 0%Z else py_int s
            | None => Ok 0%Z end) as [sc|e]; simpl; intro H; [|discriminate].
  injection H as <-. simpl. auto.
Qed.

Lemma find_some_in {A} (f : A -> bool) (l : list A) (x : A) :
  find f l = Some x -> In x l /\ f x = true.
Proof.
  induction l as [|y l IH]; simpl; [discriminate|].
  destruct (f y) eqn:E; intro H; [injection H as <-; auto|].
  destruct (IH H); auto.
Qed.

Lemma summarize_game_ok_inv (ev : RawGame) (g : Game) :
  summarize_game ev = Ok g ->
  exists c rest ch ca,
    competitions ev = c :: rest /\
    find (fun x => String.eqb (homeAway x) "home") (competitors c) = Some ch /\
    find (fun x => String.eqb (homeAway x) "away") (competitors c) = Some ca /\
    team_info ch = Ok (g_home g) /\ team_info ca = Ok (g_away g).
Proof.
  unfold summarize_game. intro H.
  destruct (competitions ev) as [|c rest]; simpl in H; [discriminate H|].
  unfold next_side in H.
  destruct (find (fun x => String.eqb (homeAway x) "home") (competitors c))
    as [ch|] eqn:Eh; simpl in H; [|discriminate H].
  destruct (find (fun x => String.eqb (homeAway x) "away") (competitors c))
    as [ca|] eqn:Ea; simpl in H; [|discriminate H].
  destruct (team_info ch) as [th|e] eqn:Th; simpl in H; [|discriminate H].
  destruct (team_info ca) as [ta|e] eqn:Ta; simpl in H; [|discriminate H].
  injection H as <-. exists c, rest, ch, ca. simpl. auto.
Qed.


Lemma find_some_split {A} (f : A -> bool) (l : list A) (x : A) :
  find f l = Some x ->
  exists pre post, l = (pre ++ x :: post)%list /\ f x = true /\
                   Forall (fun y => f y = false) pre.
Proof.
  induction l as [|y l IH]; simpl; [discriminate|].
  destruct (f y) eqn:E; intro H.
  - injection H as <-. exists [], l. auto.
  - destruct (IH H) as (pre & post & -> & Hx & Hpre).
    exists (y :: pre), post. simpl. auto.
Qed.

(** X1. A record summary written "W-L" or "W-L-T" (non-negative integers in
    decimal) is read back as (W, L); a ties count is ignored. *)
Theorem parse_record_format_roundtrip (w l t : Z) :
  (0 <= w)%Z -> (0 <= l)%Z -> (0 <= t)%Z ->
  _parse_record (str_of_int w ++ "-" ++ str_of_int l) = (w, l) /\
  _parse_record (str_of_int w ++ "-" ++ str_of_int l ++ "-" ++ str_of_int t)
  = (w, l).
Proof.
  intros Hw Hl Ht.
  destruct (str_of_int_nonneg w Hw) as (Dw & Nw & Vw).
  destruct (str_of_int_nonneg l Hl) as (Dl & Nl & Vl).
  destruct (str_of_int_nonneg t Ht) as (Dt & Nt & Vt).
  split.
  - assert (E : str_of_int w ++ "-" ++ str_of_int l
                = "" ++ str_of_int w ++ "-" ++ str_of_int l ++ "")
      by (rewrite str_app_nil_r; reflexivity).
    rewrite E, parse_record_two_runs; auto; congruence.
  - assert (E : str_of_int w ++ "-" ++ str_of_int l ++ "-" ++ str_of_int t
                = "" ++ str_of_int w ++ "-" ++ str_of_int l
                  ++ ("-" ++ str_of_int t)) by reflexivity.
    rewrite E, parse_record_two_runs; auto; [congruence|].
    right. exists "-"%char, (str_of_int t). auto.
Qed.

Lemma parse_record_format_roundtrip_witness :
  _parse_record "85-67" = (85%Z, 67%Z) /\
  _parse_record "10-7-0" = (10%Z, 7%Z).
Proof.
  destruct (parse_record_format_roundtrip 85 67 0) as [H1 _]; try lia.
  destruct (parse_record_format_roundtrip 10 7 0) as [_ H2]; try lia.
  split; [exact H1|exact H2].
Defined.

(** X2. A summarised game takes its home team from the first competitor of
    [competitions[0]] marked "home" and its away team from the first one
    marked "away"; the home stat has [home = True], the away stat
    [home = False]. *)
Theorem summarize_game_sides (ev : RawGame) (g : Game) :
  summarize_game ev = Ok g ->
  exists c rest, competitions ev = c :: rest /\
  (exists pre post ch, competitors c = (pre ++ ch :: post)%list /\
     homeAway ch = "home" /\
     Forall (fun x => homeAway x <> "home") pre /\
     ts_name (g_home g) = displayName (team ch) /\
     ts_id (g_home g) = team_id (team ch) /\ ts_home (g_home g) = true) /\
  (exists pre post ca, competitors c = (pre ++ ca :: post)%list /\
     homeAway ca = "away" /\
     Forall (fun x => homeAway x <> "away") pre /\
     ts_name (g_away g) = displayName (team ca) /\
     ts_id (g_away g) = team_id (team ca) /\ ts_home (g_away g) = false).
Proof.
  intro H.
  destruct (summarize_game_ok_inv ev g H) as (c & rest & ch & ca & Hc & Fh & Fa & Th & Ta).
  exists c, rest. split; [exact Hc|split].
  - destruct (find_some_split _ _ _ Fh) as (pre & post & Hl & Hx & Hpre).
    apply String.eqb_eq in Hx.
    destruct (team_info_ok_inv ch _ Th) as (Hid & Hname & Hhome & _).
    exists pre, post, ch. repeat split; try assumption.
    + eapply Forall_impl; [|exact Hpre]. intros y Hy E.
      apply String.eqb_neq in Hy. contradiction.
    + rewrite Hhome, Hx. reflexivity.
  - destruct (find_some_split _ _ _ Fa) as (pre & post & Hl & Hx & Hpre).
    apply String.eqb_eq in Hx.
    destruct (team_info_ok_inv ca _ Ta) as (Hid & Hname & Hhome & _).
    exists pre, post, ca. repeat split; try assumption.
    + eapply Forall_impl; [|exact Hpre]. intros y Hy E.
      apply String.eqb_neq in Hy. contradiction.
    + rewrite Hhome, Hx. reflexivity.
Qed.

Lemma summarize_game_sides_witness :
  exists g, summarize_game sample_event = Ok g /\
    ts_home (g_home g) = true /\ ts_home (g_away g) = false.
Proof.
  eexists. split; [vm_compute; reflexivity|].
  match goal with |- ts_home (g_home ?g) = _ /\ _ =>
    destruct (summarize_game_sides sample_event g)
      as (c & rest & _ & (p1 & q1 & ch & _ & _ & _ & _ & _ & H1)
                       & (p2 & q2 & ca & _ & _ & _ & _ & _ & H2));
    [vm_compute; reflexivity|]
  end.
  split; [exact H1|exact H2].
Defined.



Lemma str_of_int_nonempty (n : Z) : String.eqb (str_of_int n) "" = false.
Proof.
  destruct (str_of_int_shape n) as (u & Hu & [(_ & -> & _)|(_ & -> & _)]);
    [|reflexivity].
  destruct u; [contradiction|..]; reflexivity.
Qed.

(** X4. A competitor without a record entry, or whose first record entry
    has no summary, gets 0 wins, 0 losses and a [pct] of 0. *)
Theorem team_info_no_record (c : Competitor) (t : TeamStat) :
  (records c = [] \/ exists r rs, records c = r :: rs /\ summary r = None) ->
  team_info c = Ok t ->
  ts_wins t = 0%Z /\ ts_losses t = 0%Z /\ ts_pct t = 0%Q.
Proof.
  intros Hr Ht.
  destruct (team_info_ok_inv c t Ht) as (_ & _ & _ & Hwl).
  assert (E : (ts_wins t, ts_losses t) = (0%Z, 0%Z)).
  { rewrite Hwl. destruct Hr as [->|(r & rs & -> & ->)]; reflexivity. }
  injection E as Ew El.
  destruct (team_info_pct c t Ht) as (_ & _ & H0 & _).
  repeat split; try assumption. apply H0. rewrite Ew, El. reflexivity.
Qed.

Lemma team_info_no_record_witness :
  exists t, team_info (mkCompetitor "home" (mkTeam "7" "Mets" None) [] None)
            = Ok t /\ ts_pct t = 0%Q.
Proof.
  eexists. split; [vm_compute; reflexivity|].
  match goal with |- ts_pct ?t = _ =>
    destruct (team_info_no_record
                (mkCompetitor "home" (mkTeam "7" "Mets" None) [] None) t
                (or_introl eq_refl) eq_refl) as (_ & _ & H)
  end.
  exact H.
Defined.

(** X5. A missing or empty score counts as 0, and a score given as the
    decimal form [str(n)] of an integer is read back as [n]; in both cases
    [team_info] does not raise. *)
Theorem team_info_score (c : Competitor) :
  ((score c = None \/ score c = Some "") ->
   exists t, team_info c = Ok t /\ ts_score t = 0%Z) /\
  (forall n, score c = Some (str_of_int n) ->
   exists t, team_info c = Ok t /\ ts_score t = n).
Proof.
  split.
  - intro Hs. unfold team_info. destruct (_parse_record _) as [w l].
    destruct Hs as [-> | ->]; simpl; eexists; split; reflexivity.
  - intros n Hs. unfold team_info. destruct (_parse_record _) as [w l].
    rewrite Hs, str_of_int_nonempty, py_int_str_of_int_lemma. simpl.
    eexists; split; reflexivity.
Qed.

Lemma team_info_score_witness :
  exists t, team_info (mkCompetitor "away" (mkTeam "7" "Mets" None) []
                         (Some "12")) = Ok t /\ ts_score t = 12%Z.
Proof.
  exact (proj2 (team_info_score
                  (mkCompetitor "away" (mkTeam "7" "Mets" None) [] (Some "12")))
               12%Z eq_refl).
Defined.



(** ** The scoreboard request *)




(** X8. An HTTP status from 400 to 599 on the league's endpoint becomes the
    report text "❌ Could not fetch {LEAGUE} games: {code} Client Error:
    ..." (codes below 500) or "... Server Error: ..." (500 to 599), with
    the reason and the requested URL. *)
Theorem build_daily_report_http_error
    (http : string -> list (string * string) -> Transport) (today : Date)
    (sport url : string) (r : HttpResponse) :
  dict_get sport ESPN_SCOREBOARD = Some url ->
  http url (_today_params today) = Received r ->
  (400 <= status_code r < 600)%Z ->
  build_daily_report (fetch_games_http http today) sport
  = Ok ("❌ Could not fetch " ++ upper sport ++ " games: "
        ++ str_of_int (status_code r)
        ++ (if (status_code r <? 500)%Z then " Client Error: "
            else " Server Error: ")
        ++ http_reason r ++ " for url: " ++ http_url r).
Proof.
  intros Hu Hr Hc. unfold build_daily_report, fetch_games_http.
  rewrite Hu, Hr. unfold raise_for_status.
  assert (A : (400 <=? status_code r)%Z = true) by (apply Z.leb_le; lia).
  rewrite A.
  destruct (status_code r <? 500)%Z eqn:E; [reflexivity|].
  apply Z.ltb_ge in E.
  assert (B : (500 <=? status_code r)%Z = true) by (apply Z.leb_le; lia).
  assert (C : (status_code r <? 600)%Z = true) by (apply Z.ltb_lt; lia).
  rewrite B, C. reflexivity.
Qed.

Lemma build_daily_report_http_error_witness :
  build_daily_report
    (fetch_games_http
       (fun u _ => Received (mkHttpResponse 503 "Service Unavailable"
                               (u ++ "?dates=2025-05-01") (InvalidJson "x")))
       (mkDate 2025 5 1)) "nfl"
  = Ok ("❌ Could not fetch NFL games: 503 Server Error: Service Unavailable for url: "
        ++ "https://site.api.espn.com/apis/v2/sports/football/nfl/scoreboard"
        ++ "?dates=2025-05-01").
Proof.
  rewrite (build_daily_report_http_error _ _ "nfl"
             "https://site.api.espn.com/apis/v2/sports/football/nfl/scoreboard"
             (mkHttpResponse 503 "Service Unavailable"
                ("https://site.api.espn.com/apis/v2/sports/football/nfl/scoreboard"
                 ++ "?dates=2025-05-01") (InvalidJson "x")));
    [reflexivity|reflexivity|reflexivity|simpl; lia].
Defined.

(** X9. For a response whose status is not an error and whose body is a
    JSON object, the report is the one for the [events] it lists; a body
    without [events] (or with [null]) gives "No {LEAGUE} games found for
    today.". *)
Theorem build_daily_report_response_events
    (http : string -> list (string * string) -> Transport) (today : Date)
    (sport url : string) (r : HttpResponse) (events : option (list RawGame)) :
  dict_get sport ESPN_SCOREBOARD = Some url ->
  http url (_today_params today) = Received r ->
  (status_code r < 400 \/ 600 <= status_code r)%Z ->
  body r = JsonObject events ->
  build_daily_report (fetch_games_http http today) sport
  = build_daily_report
      (fun _ => Fetched (match events with Some l => l | None => [] end)) sport /\
  (events = None ->
   build_daily_report (fetch_games_http http today) sport
   = Ok ("No " ++ upper sport ++ " games found for today.")).
Proof.
  intros Hu Hr Hc Hb.
  assert (Hs : raise_for_status r = None).
  { unfold raise_for_status.
    replace ((400 <=? status_code r)%Z && (status_code r <? 500)%Z) with false
      by (symmetry; apply andb_false_iff;
          destruct Hc; [left; apply Z.leb_gt|right; apply Z.ltb_ge]; lia).
    replace ((500 <=? status_code r)%Z && (status_code r <? 600)%Z) with false
      by (symmetry; apply andb_false_iff;
          destruct Hc; [left; apply Z.leb_gt|right; apply Z.ltb_ge]; lia).
    reflexivity. }
  assert (Hf : build_daily_report (fetch_games_http http today) sport
               = build_daily_report
                   (fun _ => Fetched (match events with Some l => l | None => [] end))
                   sport).
  { unfold build_daily_report, fetch_games_http.
    rewrite Hu, Hr, Hs, Hb. destruct events; reflexivity. }
  split; [exact Hf|]. intros ->. rewrite Hf. reflexivity.
Qed.

Lemma build_daily_report_response_events_witness :
  build_daily_report
    (fetch_games_http
       (fun u _ => Received (mkHttpResponse 200 "OK" u (JsonObject None)))
       (mkDate 2025 5 1)) "mlb"
  = Ok "No MLB games found for today.".
Proof.
  apply (proj2 (build_daily_report_response_events _ _ "mlb"
    "https://site.api.espn.com/apis/v2/sports/baseball/mlb/scoreboard"
    (mkHttpResponse 200 "OK"
       "https://site.api.espn.com/apis/v2/sports/baseball/mlb/scoreboard"
       (JsonObject None)) None eq_refl eq_refl (or_introl (eq_refl Lt)) eq_refl)).
  reflexivity.
Defined.

(** ** [_today_params] *)


Lemma all_chars_app (p : ascii -> bool) (a b : string) :
  all_chars p (a ++ b) = all_chars p a && all_chars p b.
Proof.
  induction a as [|c a IH]; simpl; [reflexivity|].
  rewrite IH. apply andb_assoc.
Qed.





(** ** [today_cmd] and [on_startup] *)

Lemma map_result_ok {A B} (f : A -> result B) (xs : list A) (ys : list B) :
  Forall2 (fun x y => f x = Ok y) xs ys -> map_result f xs = Ok ys.
Proof.
  induction 1 as [|x y xs ys Hx _ IH]; simpl; [reflexivity|].
  rewrite Hx. simpl. rewrite IH. reflexivity.
Qed.

Lemma map_result_raise {A B} (f : A -> result B) (xs : list A) (x : A) (e : exn) :
  In x xs -> f x = Raise e -> exists e', map_result f xs = Raise e'.
Proof.
  induction xs as [|y xs IH]; intros Hin Hx; [destruct Hin|].
  simpl. destruct Hin as [<-|Hin].
  - rewrite Hx. simpl. eauto.
  - destruct (f y) as [b|e']; simpl; [|eauto].
    destruct (IH Hin Hx) as [e' ->]. simpl. eauto.
Qed.

(** X11. The [/today] reply is the per-league reports of the selected
    leagues, in selection order, separated by a blank line; an exception in
    any one league's report (a malformed game) aborts the whole reply,
    also for the other leagues. *)
Theorem today_reply_parts (fetch_games : string -> FetchOutcome)
    (args : list string) :
  (forall parts,
     Forall2 (fun s p => build_daily_report fetch_games s = Ok p)
       (to_do args) parts ->
     today_reply fetch_games args
     = Ok (join (String "010"%char (String "010"%char EmptyString)) parts)) /\
  (forall s e, In s (to_do args) -> build_daily_report fetch_games s = Raise e ->
     exists e', today_reply fetch_games args = Raise e').
Proof.
  split.
  - intros parts H. unfold today_reply.
    rewrite (map_result_ok _ _ _ H). reflexivity.
  - intros s e Hin He. unfold today_reply.
    destruct (map_result_raise _ _ _ _ Hin He) as [e' ->]. exists e'. reflexivity.
Qed.

Lemma today_reply_parts_witness :
  today_reply (fun s => if String.eqb s "mlb" then Fetched [sample_event_no_home]
                        else FetchFailed "timeout") []
  = Raise StopIteration /\
  today_reply (fun _ => FetchFailed "timeout") ["NFL"]
  = Ok "❌ Could not fetch NFL games: timeout".
Proof.
  split.
  - destruct (proj2 (today_reply_parts
                (fun s => if String.eqb s "mlb" then Fetched [sample_event_no_home]
                          else FetchFailed "timeout") [])
                "mlb" StopIteration (or_introl eq_refl)) as [e' He'];
      [vm_compute; reflexivity|].
    rewrite He'. vm_compute in He'. exact (eq_sym He').
  - rewrite (proj1 (today_reply_parts (fun _ => FetchFailed "timeout") ["NFL"])
               ["❌ Could not fetch NFL games: timeout"]);
      [reflexivity|].
    repeat constructor.
Defined.

(** X12. Startup fails when the bot token is unset or empty; when it
    registers a webhook, the address is the public URL followed by
    "/webhook/" and a path token, and the webhook endpoint accepts that
    token and rejects every other one. *)
Theorem startup_webhook_registration (env : Env) (url : string) :
  (getenv env "TELEGRAM_BOT_TOKEN" "" = "" -> startup_webhook_url env = None) /\
  (startup_webhook_url env = Some (Some url) ->
   exists u sec, PUBLIC_URL env = Some u /\ u <> "" /\
     url = u ++ "/webhook/" ++ sec /\
     telegram_webhook (load_config env) sec = Processed /\
     (forall sec', sec' <> sec ->
      telegram_webhook (load_config env) sec' = Forbidden)).
Proof.
  unfold startup_webhook_url, on_startup. cbn [TELEGRAM_BOT_TOKEN load_config].
  split.
  - intros ->. reflexivity.
  - destruct (String.eqb (getenv env "TELEGRAM_BOT_TOKEN" "") "");
      [discriminate|].
    destruct (PUBLIC_URL env) as [u|]; [|discriminate].
    destruct (String.eqb u "" || String.eqb (WEBHOOK_SECRET (load_config env)) "")
      eqn:E; [discriminate|].
    intro H. injection H as <-.
    apply orb_false_iff in E as [Eu _]. apply String.eqb_neq in Eu.
    exists u, (WEBHOOK_SECRET (load_config env)).
    repeat split; try assumption.
    + unfold telegram_webhook. rewrite String.eqb_refl. reflexivity.
    + intros sec' Hne. unfold telegram_webhook.
      apply String.eqb_neq in Hne. rewrite Hne. reflexivity.
Qed.

Lemma startup_webhook_registration_witness :
  startup_webhook_url [("RENDER_EXTERNAL_URL", "https://bot.onrender.com")] = None /\
  telegram_webhook
    (load_config [("TELEGRAM_BOT_TOKEN", "123:abc");
                  ("RENDER_EXTERNAL_URL", "https://bot.onrender.com");
                  ("WEBHOOK_SECRET", "s3")]) "s4" = Forbidden.
Proof.
  split.
  - apply (proj1 (startup_webhook_registration
                    [("RENDER_EXTERNAL_URL", "https://bot.onrender.com")] "")).
    reflexivity.
  - destruct (proj2 (startup_webhook_registration
                       [("TELEGRAM_BOT_TOKEN", "123:abc");
                        ("RENDER_EXTERNAL_URL", "https://bot.onrender.com");
                        ("WEBHOOK_SECRET", "s3")]
                       "https://bot.onrender.com/webhook/s3") eq_refl)
      as (u & sec & Hu & _ & Hurl & _ & Hrej).
    apply Hrej. intro E. subst sec.
    injection Hu as <-. discriminate Hurl.
Defined.
